(** * Keyword-based trend analyzer: the search pipeline of [upsonicai.py]

    A shallow embedding of the request-to-result pipeline of
    [src/upsonicai.py]: the [SerpAPITool.search] tool (environment lookup,
    one POST to the provider, normalisation of the organic results into
    [SearchResult] objects) and the [perform_search] request handler that
    hands the tool to an agent and packages what the agent leaves in the
    task.

    Python values coming out of [response.json()] are modelled by [json];
    dictionaries are stdpp finite maps keyed by strings.  Exceptions and
    the outbound network calls are explicit: a computation is a function
    from the log of requests sent so far to an outcome and the new log. *)

From Stdlib Require Import ZArith.
From stdpp Require Import gmap strings list fin_maps.

Local Open Scope string_scope.
Local Open Scope list_scope.
Local Open Scope Z_scope.
Set Warnings "-register-all".

(** ** Python values *)

(** What [response.json()] can produce.  A float is kept as a decimal
    mantissa and exponent; only its truth value is ever inspected. *)
Inductive json : Type :=
  | JNull
  | JBool (b : bool)
  | JInt (n : Z)
  | JFloat (mantissa exponent : Z)
  | JStr (s : string)
  | JArr (l : list json)
  | JObj (d : gmap string json).

(** Python's truth value of a JSON-born value ([bool(v)]). *)
Definition truthy (v : json) : bool :=
  match v with
  | JNull => false
  | JBool b => b
  | JInt n => negb (Z.eqb n 0)
  | JFloat m _ => negb (Z.eqb m 0)
  | JStr s => negb (String.eqb s "")
  | JArr l => match l with [] => false | _ => true end
  | JObj d => negb (bool_decide (size d = 0%nat))
  end.

(** ** Exceptions *)

(** The exceptions the pipeline can raise.  [HTTPException] is the only one
    raised by the source itself; the others come from the runtime and the
    libraries ([requests], [json], pydantic) at the marked places. *)
Inductive exn : Type :=
  | HTTPException (status_code : Z) (detail : string)
  | ValidationError (fields : list string)
  | AttributeError (attr : string)
  | TypeError
  | JSONDecodeError
  | RequestException.

Inductive outcome (A : Type) : Type :=
  | Returns (a : A)
  | Raises (e : exn).
Arguments Returns {A} a.
Arguments Raises {A} e.

Definition is_returns {A} (o : outcome A) : bool :=
  match o with Returns _ => true | Raises _ => false end.

(** Pure fallible code: the outcome monad. *)
#[global] Instance outcome_ret : MRet outcome := λ A a, Returns a.
#[global] Instance outcome_bind : MBind outcome := λ A B k o,
  match o with
  | Returns a => k a
  | Raises e => Raises e
  end.

(** A list comprehension whose element expression may raise: elements are
    built left to right and the first exception aborts the whole list. *)
Fixpoint comprehension {A B} (f : A → outcome B) (l : list A) : outcome (list B) :=
  match l with
  | [] => mret []
  | x :: l' => y ← f x; ys ← comprehension f l'; mret (y :: ys)
  end.

(** ** Effects: the log of outbound requests *)

(** [requests.post(url, headers=headers, data=payload)].  [data] is the
    value handed to [json.dumps]; its text form is what goes on the wire. *)
Record Request := {
  url : string;
  headers : gmap string string;
  data : json;
}.

(** A [requests.Response]: [json_body] is the parse of [text], [None] when
    the body is not JSON (then [response.json()] raises). *)
Record Response := {
  status_code : Z;
  text : string;
  json_body : option json;
}.

(** What the network does with a request: a reply, or a transport failure
    ([requests.post] raises). *)
Inductive post_outcome : Type :=
  | Replies (r : Response)
  | Unreachable.

(** Everything outside the process: the environment read by [os.getenv]
    and the provider behind the network. *)
Record World := {
  environ : gmap string string;
  provider : Request → post_outcome;
}.

(** An effectful computation threads the log of requests sent so far. *)
Definition M (A : Type) : Type := list Request → outcome A * list Request.

Definition raise {A} (e : exn) : M A := λ sent, (Raises e, sent).
Definition lift {A} (o : outcome A) : M A := λ sent, (o, sent).

#[global] Instance M_ret : MRet M := λ A a sent, (Returns a, sent).
#[global] Instance M_bind : MBind M := λ A B k m sent,
  match m sent with
  | (Returns a, sent') => k a sent'
  | (Raises e, sent') => (Raises e, sent')
  end.

Definition os_getenv (w : World) (name : string) : option string :=
  environ w !! name.

(** [not v] for the result of [os.getenv]: [None] and the empty string are
    both false. *)
Definition py_not (v : option string) : bool :=
  match v with
  | None => true
  | Some s => String.eqb s ""
  end.

(** One outbound call: the request is logged whether or not it is
    answered. *)
Definition requests_post (w : World) (req : Request) : M Response :=
  λ sent,
    match provider w req with
    | Replies r => (Returns r, sent ++ [req])
    | Unreachable => (Raises RequestException, sent ++ [req])
    end.

Definition response_json (r : Response) : outcome json :=
  match json_body r with
  | Some v => Returns v
  | None => Raises JSONDecodeError
  end.

(** ** The response format *)

(** [class SearchResult(ObjectResponse)]: three fields declared [str]. *)
Record SearchResult := {
  title : string;
  link : string;
  snippet : string;
}.

(** [class SearchResponse(ObjectResponse)]. *)
Record SearchResponse := {
  results : list SearchResult;
}.

(** Validation of a value against a field declared [str].  [ObjectResponse]
    is a pydantic model: a string is taken as it is, and no other JSON-born
    value is a [str] (pydantic 2 does not coerce numbers). *)
Definition validate_str (v : json) : option string :=
  match v with
  | JStr s => Some s
  | _ => None
  end.

(** The names of the fields that fail validation, in declaration order. *)
Definition invalid_fields (fields : list (string * json)) : list string :=
  (filter (λ kv, validate_str kv.2 = None) fields).*1.

(** [SearchResult(title=.., link=.., snippet=..)]: every field is validated
    and one [ValidationError] reports all the fields that failed. *)
Definition SearchResult_new (title_v link_v snippet_v : json) : outcome SearchResult :=
  match validate_str title_v, validate_str link_v, validate_str snippet_v with
  | Some t, Some l, Some s => Returns {| title := t; link := l; snippet := s |}
  | _, _, _ =>
      Raises (ValidationError
                (invalid_fields [("title", title_v); ("link", link_v);
                                 ("snippet", snippet_v)]))
  end.

(** ** The search tool *)

(** [v.get(key, dflt)]: only a dict has [get]; a present key gives its value
    whatever that value is, and only an absent key gives [dflt]. *)
Definition py_get (v : json) (key : string) (dflt : json) : outcome json :=
  match v with
  | JObj d => Returns (default dflt (d !! key))
  | _ => Raises (AttributeError "get")
  end.

(** The one-character strings of a string, in order. *)
Fixpoint chars (s : string) : list json :=
  match s with
  | EmptyString => []
  | String c s' => JStr (String c EmptyString) :: chars s'
  end.

(** The elements visited by [for result in v[:10]]: a list is cut to its
    first ten elements and a string to its first ten characters; nothing
    else that JSON produces can be sliced (for a dict the exception is a
    [TypeError] up to Python 3.11; no property below depends on its
    kind). *)
Definition slice10 (v : json) : outcome (list json) :=
  match v with
  | JArr l => Returns (take 10 l)
  | JStr s => Returns (take 10 (chars s))
  | _ => Raises TypeError
  end.

(** The element expression of the comprehension in [search]. *)
Definition SearchResult_of (result : json) : outcome SearchResult :=
  title_v ← py_get result "title" (JStr "No Title");
  link_v ← py_get result "link" (JStr "#");
  snippet_v ← py_get result "snippet" (JStr "No Description");
  SearchResult_new title_v link_v snippet_v.

(** Lines 59 to 68: from the parsed body to the returned list. *)
Definition organic_results (data : json) : outcome (list SearchResult) :=
  search_results ← py_get data "organic" (JArr []);
  sliced ← slice10 search_results;
  comprehension SearchResult_of sliced.

Definition search_request (api_key query : string) : Request :=
  {| url := "https://google.serper.dev/search";
     headers := {[ "X-API-KEY" := api_key;
                   "Content-Type" := "application/json" ]};
     data := JObj {[ "q" := JStr query ]} |}.

(** [SerpAPITool.search]. *)
Definition search (w : World) (query : string) : M (list SearchResult) :=
  let api_key := os_getenv w "SERPAPI_API_KEY" in
  if py_not api_key then
    raise (HTTPException 500 "SerpAPI API Key not found!")
  else
    response ← requests_post w (search_request (default "" api_key) query);
    if status_code response =? 200 then
      lift (data ← response_json response; organic_results data)
    else
      raise (HTTPException 500 ("SerpAPI Request Failed: " +:+ text response)).

(** ** The request handler *)

(** [class SearchInput(BaseModel)]. *)
Record SearchInput := {
  keyword : string;
}.

Record AgentConfiguration := {
  job_title : string;
  company_url : string;
  company_objective : string;
  reflection : bool;
}.

Definition search_agent : AgentConfiguration :=
  {| job_title := "Search Analyst";
     company_url := "https://upsonic.ai";
     company_objective := "Fetch and analyze the latest search results";
     reflection := true |}.

(** A tool handed to the agent, and the task built by the handler.  The
    response format of the task is always [SearchResponse]. *)
Definition Tool : Type := string → M (list SearchResult).

Record Task := {
  description : string;
  tools : list Tool;
}.

(** What the agent leaves in [task.response]: nothing, an instance of the
    response format, or some other value. *)
Inductive response_value : Type :=
  | NoResponse
  | ModelResponse (r : SearchResponse)
  | RawResponse (v : json).

(** [client.agent(config, task)] belongs to the agent library: it may call
    the tools, may raise, and its result is read back from the task. *)
Definition Agent : Type := AgentConfiguration → Task → M response_value.

(** Truth value of [task.response]; a model instance is always true. *)
Definition response_truthy (v : response_value) : bool :=
  match v with
  | NoResponse => false
  | ModelResponse _ => true
  | RawResponse j => truthy j
  end.

(** [search_data.results]. *)
Definition get_results (v : response_value) : outcome (list SearchResult) :=
  match v with
  | ModelResponse r => Returns (results r)
  | _ => Raises (AttributeError "results")
  end.

(** The dict returned by the handler: keys ["keyword"] and ["results"]. *)
Record ResponseBody := {
  body_keyword : string;
  body_results : list SearchResult;
}.

Definition task_description (kw : string) : string :=
  "Perform a web search for " +:+ kw
    +:+ " and return the top results with titles, links, and snippets.".

(** The task built at the head of [perform_search]: the description embeds
    the keyword and the search tool is the only tool. *)
Definition search_task (w : World) (input_data : SearchInput) : Task :=
  {| description := task_description (keyword input_data);
     tools := [search w] |}.

(** [perform_search], the handler behind [POST /search/]. *)
Definition perform_search (agent : Agent) (w : World) (input_data : SearchInput)
    : M ResponseBody :=
  search_data ← agent search_agent (search_task w input_data);
  if negb (response_truthy search_data) then
    raise (HTTPException 500 "Failed to fetch search results.")
  else
    rs ← lift (get_results search_data);
    mret {| body_keyword := keyword input_data; body_results := rs |}.

(** ** The route *)

(** Validation of the request body against [SearchInput]: the body must be
    an object whose ["keyword"] is a string. *)
Definition SearchInput_validate (body : json) : option SearchInput :=
  match body with
  | JObj d => s ← (d !! "keyword") ≫= validate_str; Some {| keyword := s |}
  | _ => None
  end.

(** What the client of [POST /search/] receives: the handler's dict, the
    status and detail of an [HTTPException], a rejected body, or the
    framework's answer to any other exception. *)
Inductive HttpReply : Type :=
  | Reply200 (body : ResponseBody)
  | ReplyDetail (status : Z) (detail : string)
  | ReplyUnprocessable
  | ReplyInternalError.


Definition reply_of (o : outcome ResponseBody) : HttpReply :=
  match o with
  | Returns body => Reply200 body
  | Raises (HTTPException status detail) => ReplyDetail status detail
  | Raises _ => ReplyInternalError
  end.

Definition post_search (agent : Agent) (w : World) (body : json)
    : list Request → HttpReply * list Request :=
  λ sent,
    match SearchInput_validate body with
    | None => (ReplyUnprocessable, sent)
    | Some input_data =>
        let '(o, sent') := perform_search agent w input_data sent in
        (reply_of o, sent')
    end.

(** ** Well-typed provider records *)

Definition result_fields : list string := ["title"; "link"; "snippet"].

(** A provider record whose [title], [link] and [snippet], where present,
    are strings. *)
Definition str_field_ok (d : gmap string json) (key : string) : bool :=
  match d !! key with
  | None => true
  | Some v => bool_decide (is_Some (validate_str v))
  end.

Definition record_ok (e : json) : bool :=
  match e with
  | JObj d => forallb (str_field_ok d) result_fields
  | _ => false
  end.

(** The string found under [key], or the placeholder when the key is
    absent: what a field of the result is for a well-typed record. *)
Definition field_or (d : gmap string json) (key placeholder : string) : string :=
  match d !! key with
  | Some (JStr s) => s
  | _ => placeholder
  end.

(** What a field of the result is, given the record it was built from. *)
Definition field_spec (d : gmap string json) (key placeholder out : string) : Prop :=
  (d !! key = None → out = placeholder)
  ∧ (∀ s, d !! key = Some (JStr s) → out = s).

(** The API key is configured: present in the environment and not empty. *)
Definition key_configured (w : World) (api_key : string) : Prop :=
  os_getenv w "SERPAPI_API_KEY" = Some api_key ∧ api_key ≠ "".

(** ** Sample collaborators

    Agents and worlds used to run the pipeline on concrete inputs. *)
Module Samples.

(** An agent that leaves nothing in the task. *)
Definition silent_agent : Agent := λ _ _, mret NoResponse.

(** An agent that calls the first tool of the task with a query of its
    own choice and wraps what the tool returns. *)
Definition calling_agent (query : string) : Agent :=
  λ _ task,
    match tools task with
    | tool :: _ => rs ← tool query; mret (ModelResponse {| results := rs |})
    | [] => mret NoResponse
    end.

(** A world whose provider answers every request with [resp]. *)
Definition world_replying (key : option string) (resp : Response) : World :=
  {| environ := from_option (λ k, {[ "SERPAPI_API_KEY" := k ]}) ∅ key;
     provider := λ _, Replies resp |}.

Definition ok_reply (body : json) : Response :=
  {| status_code := 200; text := "{...}"; json_body := Some body |}.

Definition entry (name : string) : json :=
  JObj {[ "title" := JStr ("title " +:+ name);
          "link" := JStr ("https://example.org/" +:+ name);
          "snippet" := JStr ("about " +:+ name) ]}.

Definition hit (name : string) : SearchResult :=
  {| title := "title " +:+ name;
     link := "https://example.org/" +:+ name;
     snippet := "about " +:+ name |}.

Definition twelve : list string :=
  ["a"; "b"; "c"; "d"; "e"; "f"; "g"; "h"; "i"; "j"; "k"; "l"].

(** An agent that calls the first tool like [calling_agent] but handles a
    failure of the tool itself: it then leaves a response without results. *)
Definition tolerant_agent (query : string) : Agent :=
  λ _ task sent,
    match tools task with
    | tool :: _ =>
        match tool query sent with
        | (Returns rs, sent') => (Returns (ModelResponse {| results := rs |}), sent')
        | (Raises _, sent') => (Returns (ModelResponse {| results := [] |}), sent')
        end
    | [] => (Returns NoResponse, sent)
    end.

(** An agent that works like [calling_agent] on the task with the expected
    description and leaves nothing for any other task. *)
Definition picky_agent (expected query : string) : Agent :=
  λ config task,
    if String.eqb (description task) expected
    then calling_agent query config task
    else mret NoResponse.

End Samples.

(** * Properties *)

(** ** Running the monads *)

Lemma M_bind_returns {A B} (m : M A) (k : A → M B) sent a sent' :
  m sent = (Returns a, sent') → (m ≫= k) sent = k a sent'.
Proof. intros Hm. unfold mbind, M_bind. by rewrite Hm. Qed.

Lemma M_bind_raises {A B} (m : M A) (k : A → M B) sent e sent' :
  m sent = (Raises e, sent') → (m ≫= k) sent = (Raises e, sent').
Proof. intros Hm. unfold mbind, M_bind. by rewrite Hm. Qed.

Lemma comprehension_Forall2 {A B} (f : A → outcome B) l rs :
  comprehension f l = Returns rs ↔ Forall2 (λ x y, f x = Returns y) l rs.
Proof.
  revert rs. induction l as [|x l IH]; intros rs; simpl.
  - split.
    + intros [= <-]. constructor.
    + by inversion 1.
  - unfold mbind, outcome_bind, mret, outcome_ret.
    destruct (f x) as [y|e] eqn:Hx.
    + destruct (comprehension f l) as [ys|e] eqn:Hl.
      * split.
        -- intros [= <-]. constructor; [done | by apply IH].
        -- inversion 1 as [|? y' ? ys' Hy Hys]; subst.
           apply IH in Hys. congruence.
      * split; [done |].
        inversion 1 as [|? y' ? ys' Hy Hys]; subst.
        apply IH in Hys. congruence.
    + split; [done |]. inversion 1; congruence.
Qed.

Lemma comprehension_length {A B} (f : A → outcome B) l rs :
  comprehension f l = Returns rs → length rs = length l.
Proof.
  rewrite comprehension_Forall2. intros H. symmetry. by eapply Forall2_length.
Qed.

Lemma comprehension_total {A B} (f : A → outcome B) l :
  Forall (λ x, is_returns (f x) = true) l → ∃ rs, comprehension f l = Returns rs.
Proof.
  induction 1 as [|x l Hx _ [rs IH]]; simpl.
  - by exists [].
  - destruct (f x) as [y|] eqn:Hfx; [|done].
    exists (y :: rs). unfold mbind, outcome_bind. by rewrite IH.
Qed.

Lemma comprehension_raises {A B} (f : A → outcome B) l1 x l2 e :
  Forall (λ x, is_returns (f x) = true) l1 → f x = Raises e →
  comprehension f (l1 ++ x :: l2) = Raises e.
Proof.
  intros Hl1 Hx. induction Hl1 as [|y l1 Hy _ IH]; simpl.
  - by rewrite Hx.
  - destruct (f y); [|done]. unfold mbind, outcome_bind in *. by rewrite IH.
Qed.

(** ** One record *)

Lemma str_field_ok_get d key placeholder :
  str_field_ok d key = true →
  default (JStr placeholder) (d !! key) = JStr (field_or d key placeholder).
Proof.
  unfold str_field_ok, field_or. destruct (d !! key) as [v|]; simpl; [|done].
  destruct v; simpl; intros H; try done;
    apply bool_decide_eq_true in H; by destruct H.
Qed.

Lemma SearchResult_of_well_typed d :
  record_ok (JObj d) = true →
  SearchResult_of (JObj d) =
    Returns {| title := field_or d "title" "No Title";
               link := field_or d "link" "#";
               snippet := field_or d "snippet" "No Description" |}.
Proof.
  simpl. rewrite !andb_true_iff. intros (Ht & Hl & Hs & _).
  unfold SearchResult_of, py_get, mbind, outcome_bind.
  by rewrite (str_field_ok_get _ _ _ Ht), (str_field_ok_get _ _ _ Hl),
    (str_field_ok_get _ _ _ Hs).
Qed.

Lemma record_ok_returns e :
  record_ok e = true → is_returns (SearchResult_of e) = true.
Proof.
  destruct e; try done. intros H. by rewrite SearchResult_of_well_typed.
Qed.

Lemma records_return (l : list json) :
  forallb record_ok l = true →
  Forall (λ e, is_returns (SearchResult_of e) = true) l.
Proof.
  intros Hok. apply Forall_forall. intros e He. apply record_ok_returns.
  rewrite forallb_forall in Hok. apply Hok. by apply list_elem_of_In.
Qed.

Lemma elem_of_invalid_fields fields key :
  key ∈ invalid_fields fields ↔ ∃ v, (key, v) ∈ fields ∧ validate_str v = None.
Proof.
  unfold invalid_fields. rewrite list_elem_of_fmap. split.
  - intros [[k v] [-> [Hv Hin]%list_elem_of_filter]]. by exists v.
  - intros (v & Hin & Hv). exists (key, v). split; [done|].
    by apply list_elem_of_filter.
Qed.

(** A present value that is not a string makes the constructor raise, and
    the error names the field. *)
Lemma SearchResult_of_ill_typed d key v :
  key ∈ result_fields → d !! key = Some v → validate_str v = None →
  ∃ fs, SearchResult_of (JObj d) = Raises (ValidationError fs) ∧ key ∈ fs.
Proof.
  intros Hkey Hv Hbad.
  unfold SearchResult_of, py_get, mbind, outcome_bind, SearchResult_new.
  set (t := default (JStr "No Title") (d !! "title")).
  set (l := default (JStr "#") (d !! "link")).
  set (s := default (JStr "No Description") (d !! "snippet")).
  assert (Hin : (key, v) ∈ [("title", t); ("link", l); ("snippet", s)]).
  { subst t l s. unfold result_fields in Hkey.
    repeat (apply elem_of_cons in Hkey as [->|Hkey];
            [rewrite Hv; simpl; set_solver|]).
    by apply elem_of_nil in Hkey. }
  assert (Hfs : key ∈ invalid_fields [("title", t); ("link", l); ("snippet", s)]).
  { apply elem_of_invalid_fields. eauto. }
  destruct (validate_str t) eqn:Et, (validate_str l) eqn:El,
    (validate_str s) eqn:Es; eauto.
  exfalso. apply elem_of_invalid_fields in Hfs as (v' & Hv' & Hnone).
  repeat (apply elem_of_cons in Hv' as [[= -> ->]|Hv']; [congruence|]).
  by apply elem_of_nil in Hv'.
Qed.

(** ** The search tool, step by step *)

Lemma key_configured_truthy w api_key :
  key_configured w api_key → py_not (os_getenv w "SERPAPI_API_KEY") = false.
Proof.
  intros [-> Hne]. simpl. by apply String.eqb_neq.
Qed.

Lemma search_without_key w query sent :
  py_not (os_getenv w "SERPAPI_API_KEY") = true →
  search w query sent =
    (Raises (HTTPException 500 "SerpAPI API Key not found!"), sent).
Proof. intros H. unfold search. by rewrite H. Qed.

Lemma search_replied w query sent api_key resp :
  key_configured w api_key →
  provider w (search_request api_key query) = Replies resp →
  search w query sent =
    (if status_code resp =? 200
     then response_json resp ≫= organic_results
     else Raises (HTTPException 500 ("SerpAPI Request Failed: " +:+ text resp)),
     sent ++ [search_request api_key query]).
Proof.
  intros Hkey Hresp. unfold search.
  rewrite (key_configured_truthy _ _ Hkey). destruct Hkey as [-> _]. simpl.
  unfold mbind at 1, M_bind, requests_post. rewrite Hresp.
  by destruct (status_code resp =? 200).
Qed.

Lemma search_unreachable w query sent api_key :
  key_configured w api_key →
  provider w (search_request api_key query) = Unreachable →
  search w query sent =
    (Raises RequestException, sent ++ [search_request api_key query]).
Proof.
  intros Hkey Hresp. unfold search.
  rewrite (key_configured_truthy _ _ Hkey). destruct Hkey as [-> _]. simpl.
  unfold mbind at 1, M_bind, requests_post. by rewrite Hresp.
Qed.

Lemma organic_results_list d l :
  d !! "organic" = Some (JArr l) →
  organic_results (JObj d) = comprehension SearchResult_of (take 10 l).
Proof. intros H. unfold organic_results, py_get. by rewrite H. Qed.

Lemma organic_results_missing d :
  d !! "organic" = None → organic_results (JObj d) = Returns [].
Proof. intros H. unfold organic_results, py_get. by rewrite H. Qed.

Lemma sample_key_configured resp :
  key_configured (Samples.world_replying (Some "k") resp) "k".
Proof. split; [reflexivity | discriminate]. Qed.

Example sample_twelve :
  (search (Samples.world_replying (Some "k")
             (Samples.ok_reply
                (JObj {[ "organic" := JArr (Samples.entry <$> Samples.twelve) ]})))
          "rust vs go" []).1
  = Returns (Samples.hit <$> take 10 Samples.twelve).
Proof. vm_compute. reflexivity. Qed.

(** ** Truncation and order (C1) *)

(** Whatever the entries are, the outcome of the search is the outcome of
    building a result from each of the first ten entries, in order. *)
Lemma search_builds_first_ten w query sent api_key resp d l :
  key_configured w api_key →
  provider w (search_request api_key query) = Replies resp →
  status_code resp = 200 →
  json_body resp = Some (JObj d) →
  d !! "organic" = Some (JArr l) →
  search w query sent =
    (comprehension SearchResult_of (take 10 l),
     sent ++ [search_request api_key query]).
Proof.
  intros Hkey Hresp Hstatus Hbody Horganic.
  rewrite (search_replied _ _ _ _ _ Hkey Hresp), Hstatus. simpl.
  unfold response_json. rewrite Hbody. simpl.
  by rewrite (organic_results_list _ _ Horganic).
Qed.

(** C1, as the code has it.  When the provider answers 200 with an object
    whose ["organic"] is a list of [n] entries, the first ten of them records
    whose [title], [link] and [snippet] are strings where present, the search
    returns exactly [min n 10] results: the results built from the first ten
    entries, position by position, in the provider's order. *)
Theorem search_returns_first_ten w query sent api_key resp d l :
  key_configured w api_key →
  provider w (search_request api_key query) = Replies resp →
  status_code resp = 200 →
  json_body resp = Some (JObj d) →
  d !! "organic" = Some (JArr l) →
  forallb record_ok (take 10 l) = true →
  ∃ rs,
    search w query sent = (Returns rs, sent ++ [search_request api_key query])
    ∧ length rs = (length l `min` 10)%nat
    ∧ Forall2 (λ e r, SearchResult_of e = Returns r) (take 10 l) rs.
Proof.
  intros Hkey Hresp Hstatus Hbody Horganic Hok.
  destruct (comprehension_total SearchResult_of (take 10 l)) as [rs Hrs].
  { by apply records_return. }
  exists rs. split; [|split].
  - by rewrite (search_builds_first_ten _ _ _ _ _ _ _ Hkey Hresp Hstatus Hbody
                  Horganic), Hrs.
  - rewrite (comprehension_length _ _ _ Hrs), length_take. lia.
  - by apply comprehension_Forall2.
Qed.

(** Twelve organic results: exactly the first ten come back, in order. *)
Lemma search_returns_first_ten_witness :
  let w := Samples.world_replying (Some "k")
             (Samples.ok_reply
                (JObj {[ "organic" := JArr (Samples.entry <$> Samples.twelve) ]})) in
  ∃ rs,
    search w "rust vs go" [] = (Returns rs, [] ++ [search_request "k" "rust vs go"])
    ∧ length rs = (length (Samples.entry <$> Samples.twelve) `min` 10)%nat
    ∧ Forall2 (λ e r, SearchResult_of e = Returns r)
        (take 10 (Samples.entry <$> Samples.twelve)) rs.
Proof.
  intros w.
  apply (search_returns_first_ten w "rust vs go" [] "k"
           (Samples.ok_reply
              (JObj {[ "organic" := JArr (Samples.entry <$> Samples.twelve) ]}))
           {[ "organic" := JArr (Samples.entry <$> Samples.twelve) ]}
           (Samples.entry <$> Samples.twelve)).
  - split; [reflexivity | discriminate].
  - reflexivity.
  - reflexivity.
  - reflexivity.
  - vm_compute. reflexivity.
  - vm_compute. reflexivity.
Defined.

(** One organic entry whose title is null: the search raises instead of
    returning one result. *)
Lemma search_may_return_nothing :
  ¬ (∀ w query sent api_key resp (d : gmap string json) l,
       key_configured w api_key →
       provider w (search_request api_key query) = Replies resp →
       status_code resp = 200 →
       json_body resp = Some (JObj d) →
       d !! "organic" = Some (JArr l) →
       Forall (λ e, ∃ r : gmap string json, e = JObj r) l →
       ∃ rs, (search w query sent).1 = Returns rs
             ∧ length rs = (length l `min` 10)%nat).
Proof.
  intros H.
  set (l := [JObj {[ "title" := JNull; "link" := JStr "https://a.example";
                     "snippet" := JStr "about a" ]}]).
  destruct (H (Samples.world_replying (Some "k")
                 (Samples.ok_reply (JObj {[ "organic" := JArr l ]})))
              "rust vs go" [] "k"
              (Samples.ok_reply (JObj {[ "organic" := JArr l ]}))
              {[ "organic" := JArr l ]} l) as (rs & Hrs & _).
  - split; [reflexivity | discriminate].
  - reflexivity.
  - reflexivity.
  - reflexivity.
  - reflexivity.
  - repeat constructor. eauto.
  - discriminate Hrs.
Qed.

(** An entry that is not a mapping has no [get]. *)
Example search_on_non_mapping_entry :
  search (Samples.world_replying (Some "k")
            (Samples.ok_reply (JObj {[ "organic" := JArr [JStr "x"] ]})))
         "rust vs go" []
  = (Raises (AttributeError "get"), [search_request "k" "rust vs go"]).
Proof. vm_compute. reflexivity. Qed.

(** ** Placeholders (C2) *)

Lemma field_or_spec d key placeholder :
  field_spec d key placeholder (field_or d key placeholder).
Proof.
  unfold field_spec, field_or. split.
  - by intros ->.
  - by intros s ->.
Qed.

(** C2, as the code has it.  For a record whose [title], [link] and
    [snippet] are strings where present, the result is built without error;
    each field is the placeholder when its key is absent and the record's own
    string when the key is present, the empty string included. *)
Theorem SearchResult_of_fields d :
  record_ok (JObj d) = true →
  ∃ r,
    SearchResult_of (JObj d) = Returns r
    ∧ field_spec d "title" "No Title" (title r)
    ∧ field_spec d "link" "#" (link r)
    ∧ field_spec d "snippet" "No Description" (snippet r).
Proof.
  intros Hok. eexists. split; [by apply SearchResult_of_well_typed|].
  simpl. repeat split; apply field_or_spec.
Qed.

Lemma SearchResult_of_fields_witness :
  let d : gmap string json := {[ "title" := JStr ""; "link" := JStr "https://a.example" ]} in
  ∃ r,
    SearchResult_of (JObj d) = Returns r
    ∧ field_spec d "title" "No Title" (title r)
    ∧ field_spec d "link" "#" (link r)
    ∧ field_spec d "snippet" "No Description" (snippet r).
Proof.
  intros d. apply (SearchResult_of_fields d). vm_compute. reflexivity.
Defined.

(** An empty title is present, so it is kept: the placeholder is not
    substituted for an empty value. *)
Lemma empty_title_not_replaced :
  ¬ (∀ (d : gmap string json) r,
       SearchResult_of (JObj d) = Returns r →
       d !! "title" = None ∨ d !! "title" = Some (JStr "") →
       title r = "No Title").
Proof.
  intros H.
  specialize (H {[ "title" := JStr "" ]}
                {| title := ""; link := "#"; snippet := "No Description" |}).
  discriminate H.
  - vm_compute. reflexivity.
  - right. vm_compute. reflexivity.
Qed.

(** ** Totality of normalisation (C9) *)

(** C9, as the code has it.  Over a sequence of records whose [title],
    [link] and [snippet] are strings where present, building the results
    never raises, whatever combination of the three keys each record has:
    the comprehension returns one result per record, and so does the whole
    normalisation of a payload holding the sequence (cut to ten). *)
Theorem normalisation_total_on_well_typed (l : list json) :
  forallb record_ok l = true →
  (∃ rs, comprehension SearchResult_of l = Returns rs ∧ length rs = length l)
  ∧ (∃ rs, organic_results (JObj {[ "organic" := JArr l ]}) = Returns rs
           ∧ length rs = (length l `min` 10)%nat).
Proof.
  intros Hok.
  pose proof (records_return _ Hok) as Hall.
  split.
  - destruct (comprehension_total _ _ Hall) as [rs Hrs].
    exists rs. split; [done|]. by eapply comprehension_length.
  - rewrite (organic_results_list _ l); [|by rewrite lookup_singleton_eq].
    destruct (comprehension_total SearchResult_of (take 10 l)) as [rs Hrs].
    { by apply Forall_take. }
    exists rs. split; [done|].
    rewrite (comprehension_length _ _ _ Hrs), length_take. lia.
Qed.

Lemma normalisation_total_on_well_typed_witness :
  let l := [JObj ∅; JObj {[ "title" := JStr "t" ]};
            JObj {[ "link" := JStr "u"; "snippet" := JStr "s" ]};
            JObj {[ "rating" := JFloat 45 (-1); "title" := JStr "" ]}] in
  (∃ rs, comprehension SearchResult_of l = Returns rs ∧ length rs = length l)
  ∧ (∃ rs, organic_results (JObj {[ "organic" := JArr l ]}) = Returns rs
           ∧ length rs = (length l `min` 10)%nat).
Proof.
  intros l. apply (normalisation_total_on_well_typed l). vm_compute. reflexivity.
Defined.

(** A record that is a mapping of string keys to values, with a null
    title: building its result raises. *)
Lemma normalisation_not_total :
  ¬ (∀ l : list json,
       Forall (λ e, ∃ d : gmap string json, e = JObj d) l →
       is_returns (comprehension SearchResult_of l) = true).
Proof.
  intros H. specialize (H [JObj {[ "title" := JNull ]}]).
  discriminate H. repeat constructor. eauto.
Qed.

(** A record with a null title among well-typed ones: no placeholder is
    substituted, the constructor raises a validation error naming the field,
    and the search raises that error instead of returning any result. *)
Example null_title_aborts_search :
  let d : gmap string json :=
    {[ "title" := JNull; "link" := JStr "https://a.example" ]} in
  d !! "title" = Some JNull
  ∧ SearchResult_of (JObj d) = Raises (ValidationError ["title"])
  ∧ search (Samples.world_replying (Some "k")
              (Samples.ok_reply
                 (JObj {[ "organic" :=
                            JArr [Samples.entry "a"; JObj d; Samples.entry "b"] ]})))
           "rust vs go" []
    = (Raises (ValidationError ["title"]), [search_request "k" "rust vs go"]).
Proof. repeat split; vm_compute; reflexivity. Qed.

(** The same holds for every value that is not a string, at any of the
    three keys and at any position among the first ten entries. *)
Lemma search_aborts_on_ill_typed w query sent api_key resp d l1 bad key v l2 :
  key_configured w api_key →
  provider w (search_request api_key query) = Replies resp →
  status_code resp = 200 →
  json_body resp = Some (JObj d) →
  d !! "organic" = Some (JArr (l1 ++ JObj bad :: l2)) →
  forallb record_ok l1 = true → (length l1 < 10)%nat →
  key ∈ result_fields → bad !! key = Some v → validate_str v = None →
  ∃ fs, search w query sent =
          (Raises (ValidationError fs), sent ++ [search_request api_key query])
        ∧ key ∈ fs.
Proof.
  intros Hkey Hresp Hstatus Hbody Horganic Hok Hlen Hin Hv Hbad.
  destruct (SearchResult_of_ill_typed _ _ _ Hin Hv Hbad) as (fs & Hfs & Hkfs).
  exists fs. split; [|done].
  rewrite (search_replied _ _ _ _ _ Hkey Hresp), Hstatus. simpl.
  unfold response_json. rewrite Hbody. simpl.
  rewrite (organic_results_list _ _ Horganic).
  rewrite take_app_ge by lia.
  destruct (10 - length l1)%nat as [|n] eqn:En; [lia|]. simpl.
  erewrite comprehension_raises; [done| |done].
  by apply records_return.
Qed.

(** ** Failures of the search tool (C4, C5, C6) *)

(** C4, as the code has it.  When the provider answers with a status other
    than 200, the search raises an [HTTPException] with status 500 whose
    detail is ["SerpAPI Request Failed: "] followed by the provider's body
    text; nothing is returned and exactly one request has been sent. *)
Theorem search_fails_on_non_200 w query sent api_key resp :
  key_configured w api_key →
  provider w (search_request api_key query) = Replies resp →
  status_code resp ≠ 200 →
  search w query sent =
    (Raises (HTTPException 500 ("SerpAPI Request Failed: " +:+ text resp)),
     sent ++ [search_request api_key query]).
Proof.
  intros Hkey Hresp Hstatus.
  rewrite (search_replied _ _ _ _ _ Hkey Hresp).
  by apply Z.eqb_neq in Hstatus as ->.
Qed.

Lemma search_fails_on_non_200_witness :
  let resp := {| status_code := 404; text := "Not Found"; json_body := None |} in
  search (Samples.world_replying (Some "k") resp) "rust vs go" [] =
    (Raises (HTTPException 500 ("SerpAPI Request Failed: " +:+ text resp)),
     [] ++ [search_request "k" "rust vs go"]).
Proof.
  intros resp.
  apply (search_fails_on_non_200 (Samples.world_replying (Some "k") resp)
           "rust vs go" [] "k" resp).
  - split; [reflexivity | discriminate].
  - reflexivity.
  - discriminate.
Defined.

(** The provider's status cannot be read back from the error: a 404 and a
    503 with the same body raise the same exception. *)
Lemma provider_status_not_carried :
  ¬ (∃ provider_status : exn → Z,
       ∀ resp e,
         status_code resp ≠ 200 →
         (search (Samples.world_replying (Some "k") resp) "rust vs go" []).1
           = Raises e →
         provider_status e = status_code resp).
Proof.
  intros [f Hf].
  pose proof (Hf {| status_code := 404; text := "Not Found"; json_body := None |}
                _ ltac:(discriminate) eq_refl) as H404.
  pose proof (Hf {| status_code := 503; text := "Not Found"; json_body := None |}
                _ ltac:(discriminate) eq_refl) as H503.
  simpl in H404, H503. congruence.
Qed.

(** C5.  When the API key is absent from the environment the search raises
    the key-not-found error and the log of requests is left as it was: no
    request has been sent, whatever the provider would have answered. *)
Theorem search_fails_before_network w query sent :
  os_getenv w "SERPAPI_API_KEY" = None →
  search w query sent =
    (Raises (HTTPException 500 "SerpAPI API Key not found!"), sent).
Proof.
  intros Hkey. apply search_without_key. by rewrite Hkey.
Qed.

Lemma search_fails_before_network_witness :
  search (Samples.world_replying None (Samples.ok_reply (JObj ∅))) "rust vs go" [] =
    (Raises (HTTPException 500 "SerpAPI API Key not found!"), []).
Proof.
  apply (search_fails_before_network
           (Samples.world_replying None (Samples.ok_reply (JObj ∅)))
           "rust vs go" []).
  reflexivity.
Defined.

(** An empty key is treated like an absent one. *)
Lemma search_fails_on_empty_key w query sent :
  os_getenv w "SERPAPI_API_KEY" = Some "" →
  search w query sent =
    (Raises (HTTPException 500 "SerpAPI API Key not found!"), sent).
Proof.
  intros Hkey. apply search_without_key. by rewrite Hkey.
Qed.

(** C6.  When the provider answers 200 with an object in which
    ["organic"] is missing or is the empty list, the search returns the
    empty list. *)
Theorem search_returns_empty w query sent api_key resp d :
  key_configured w api_key →
  provider w (search_request api_key query) = Replies resp →
  status_code resp = 200 →
  json_body resp = Some (JObj d) →
  d !! "organic" = None ∨ d !! "organic" = Some (JArr []) →
  search w query sent = (Returns [], sent ++ [search_request api_key query]).
Proof.
  intros Hkey Hresp Hstatus Hbody Horganic.
  rewrite (search_replied _ _ _ _ _ Hkey Hresp), Hstatus. simpl.
  unfold response_json. rewrite Hbody. simpl.
  destruct Horganic as [H|H].
  - by rewrite (organic_results_missing _ H).
  - by rewrite (organic_results_list _ _ H).
Qed.

Lemma search_returns_empty_witness :
  search (Samples.world_replying (Some "k")
            (Samples.ok_reply (JObj {[ "organic" := JArr [] ]})))
         "rust vs go" []
  = (Returns [], [] ++ [search_request "k" "rust vs go"])
  ∧ search (Samples.world_replying (Some "k")
              (Samples.ok_reply (JObj {[ "searchParameters" := JObj ∅ ]})))
           "rust vs go" []
    = (Returns [], [] ++ [search_request "k" "rust vs go"]).
Proof.
  split.
  - apply (search_returns_empty _ "rust vs go" [] "k"
             (Samples.ok_reply (JObj {[ "organic" := JArr [] ]}))
             {[ "organic" := JArr [] ]}).
    + split; [reflexivity | discriminate].
    + reflexivity.
    + reflexivity.
    + reflexivity.
    + right. vm_compute. reflexivity.
  - apply (search_returns_empty _ "rust vs go" [] "k"
             (Samples.ok_reply (JObj {[ "searchParameters" := JObj ∅ ]}))
             {[ "searchParameters" := JObj ∅ ]}).
    + split; [reflexivity | discriminate].
    + reflexivity.
    + reflexivity.
    + reflexivity.
    + left. vm_compute. reflexivity.
Defined.

(** ** The request handler (C3, C7, C8) *)

Lemma perform_search_model agent w input_data sent r sent' :
  agent search_agent (search_task w input_data) sent
    = (Returns (ModelResponse r), sent') →
  perform_search agent w input_data sent =
    (Returns {| body_keyword := keyword input_data; body_results := results r |},
     sent').
Proof.
  intros Hagent. unfold perform_search.
  by rewrite (M_bind_returns _ _ _ _ _ Hagent).
Qed.

Lemma perform_search_inv agent w input_data sent body sent' :
  perform_search agent w input_data sent = (Returns body, sent') →
  ∃ r, agent search_agent (search_task w input_data) sent
         = (Returns (ModelResponse r), sent')
       ∧ body = {| body_keyword := keyword input_data;
                   body_results := results r |}.
Proof.
  unfold perform_search, mbind at 1, M_bind.
  destruct (agent search_agent (search_task w input_data) sent)
    as [[v|e] sent1]; [|done].
  destruct v as [|r|j]; simpl.
  - done.
  - intros [= <- <-]. eauto.
  - destruct (truthy j); done.
Qed.

(** C3.  Whenever the handler returns, the ["keyword"] of the returned
    dict is the keyword of the input, character for character, whatever the
    agent did with the task; the client then receives that dict with
    status 200. *)
Theorem perform_search_echoes_keyword agent w input_data sent body sent' :
  perform_search agent w input_data sent = (Returns body, sent') →
  body_keyword body = keyword input_data
  ∧ post_search agent w (JObj {[ "keyword" := JStr (keyword input_data) ]}) sent
    = (Reply200 body, sent').
Proof.
  intros Hrun. split.
  - by apply perform_search_inv in Hrun as (r & _ & ->).
  - unfold post_search, SearchInput_validate.
    rewrite lookup_singleton_eq. simpl.
    destruct input_data as [kw]. simpl in *. by rewrite Hrun.
Qed.

(** The agent searches for something else; the keyword still comes back
    as it was given. *)
Lemma perform_search_echoes_keyword_witness :
  let w := Samples.world_replying (Some "k")
             (Samples.ok_reply (JObj {[ "organic" := JArr [Samples.entry "a"] ]})) in
  let body := {| body_keyword := "rust vs go";
                 body_results := [Samples.hit "a"] |} in
  body_keyword body = "rust vs go"
  ∧ post_search (Samples.calling_agent "golang rust comparison") w
      (JObj {[ "keyword" := JStr "rust vs go" ]}) []
    = (Reply200 body, [search_request "k" "golang rust comparison"]).
Proof.
  intros w body.
  apply (perform_search_echoes_keyword
           (Samples.calling_agent "golang rust comparison") w
           {| keyword := "rust vs go" |} [] body
           [search_request "k" "golang rust comparison"]).
  vm_compute. reflexivity.
Defined.

(** C7.  When the agent leaves no response in the task, or a value that is
    false (null, an empty string, list or dict), the handler raises an
    [HTTPException] with status 500 and the fixed detail; the client
    receives status 500 with that detail and no result. *)
Theorem perform_search_without_response agent w input_data sent v sent' :
  agent search_agent (search_task w input_data) sent = (Returns v, sent') →
  response_truthy v = false →
  perform_search agent w input_data sent =
    (Raises (HTTPException 500 "Failed to fetch search results."), sent')
  ∧ post_search agent w (JObj {[ "keyword" := JStr (keyword input_data) ]}) sent
    = (ReplyDetail 500 "Failed to fetch search results.", sent').
Proof.
  intros Hagent Hfalse.
  assert (Hrun : perform_search agent w input_data sent =
    (Raises (HTTPException 500 "Failed to fetch search results."), sent')).
  { unfold perform_search.
    rewrite (M_bind_returns _ _ _ _ _ Hagent). by rewrite Hfalse. }
  split; [done|].
  unfold post_search, SearchInput_validate.
  rewrite lookup_singleton_eq. simpl.
  destruct input_data as [kw]. simpl in *. by rewrite Hrun.
Qed.

Lemma perform_search_without_response_witness :
  let w := Samples.world_replying (Some "k") (Samples.ok_reply (JObj ∅)) in
  perform_search Samples.silent_agent w {| keyword := "rust vs go" |} [] =
    (Raises (HTTPException 500 "Failed to fetch search results."), [])
  ∧ post_search Samples.silent_agent w (JObj {[ "keyword" := JStr "rust vs go" ]}) []
    = (ReplyDetail 500 "Failed to fetch search results.", []).
Proof.
  intros w.
  apply (perform_search_without_response Samples.silent_agent w
           {| keyword := "rust vs go" |} [] NoResponse []).
  - reflexivity.
  - reflexivity.
Defined.






(** The search tool itself never inspects the query: with an empty query
    the request is sent all the same. *)
Lemma search_sends_any_query w query sent api_key :
  key_configured w api_key →
  (search w query sent).2 = sent ++ [search_request api_key query].
Proof.
  intros Hkey.
  destruct (provider w (search_request api_key query)) as [resp|] eqn:Hresp.
  - by rewrite (search_replied _ _ _ _ _ Hkey Hresp).
  - by rewrite (search_unreachable _ _ _ _ Hkey Hresp).
Qed.

(** * Further properties *)

(** ** Every run of the search tool *)

Lemma configured_of_truthy w :
  py_not (os_getenv w "SERPAPI_API_KEY") = false →
  ∃ api_key, key_configured w api_key.
Proof.
  unfold key_configured. destruct (os_getenv w "SERPAPI_API_KEY") as [k|]; [|done].
  simpl. intros Hne. exists k. split; [done|]. by apply String.eqb_neq.
Qed.

(** The three ways a run can go: no key, no answer, or an answer. *)
Lemma search_cases w query sent :
  (py_not (os_getenv w "SERPAPI_API_KEY") = true
   ∧ search w query sent =
       (Raises (HTTPException 500 "SerpAPI API Key not found!"), sent))
  ∨ (∃ api_key,
       key_configured w api_key
       ∧ provider w (search_request api_key query) = Unreachable
       ∧ search w query sent =
           (Raises RequestException, sent ++ [search_request api_key query]))
  ∨ (∃ api_key resp,
       key_configured w api_key
       ∧ provider w (search_request api_key query) = Replies resp
       ∧ search w query sent =
           (if status_code resp =? 200
            then response_json resp ≫= organic_results
            else Raises (HTTPException 500
                           ("SerpAPI Request Failed: " +:+ text resp)),
            sent ++ [search_request api_key query])).
Proof.
  destruct (py_not (os_getenv w "SERPAPI_API_KEY")) eqn:Hnot.
  - left. split; [done|]. by apply search_without_key.
  - right. destruct (configured_of_truthy _ Hnot) as [api_key Hkey].
    destruct (provider w (search_request api_key query)) as [resp|] eqn:Hp.
    + right. exists api_key, resp. split; [done|]. split; [done|].
      by apply search_replied.
    + left. exists api_key. split; [done|]. split; [done|].
      by apply search_unreachable.
Qed.

Lemma app_singleton_neq {A} (l : list A) x : l ++ [x] ≠ l.
Proof.
  intros H. apply (f_equal length) in H. rewrite length_app in H. simpl in H. lia.
Qed.

(** X1.  A run of the search sends at most one request and never touches
    the requests already logged: the log is either left as it was, or
    extended by the one request built from the configured key and the
    query. *)
Theorem search_sends_at_most_once w query sent :
  (search w query sent).2 = sent
  ∨ ∃ api_key,
      key_configured w api_key
      ∧ (search w query sent).2 = sent ++ [search_request api_key query].
Proof.
  destruct (search_cases w query sent)
    as [[_ ->]|[(k & Hk & _ & ->)|(k & resp & Hk & _ & ->)]]; simpl; eauto.
Qed.

(** X2.  The search fails with the key-not-found error, having sent
    nothing, exactly when the key is absent from the environment or is the
    empty string. *)
Theorem search_key_error_iff w query sent :
  search w query sent =
    (Raises (HTTPException 500 "SerpAPI API Key not found!"), sent)
  ↔ os_getenv w "SERPAPI_API_KEY" = None
    ∨ os_getenv w "SERPAPI_API_KEY" = Some "".
Proof.
  split.
  - intros Hrun.
    destruct (search_cases w query sent)
      as [[Hnot _]|[(k & _ & _ & Heq)|(k & resp & _ & _ & Heq)]].
    + destruct (os_getenv w "SERPAPI_API_KEY") as [s|]; [|by left].
      right. simpl in Hnot. by apply String.eqb_eq in Hnot as ->.
    + rewrite Hrun in Heq. injection Heq as _ Heq.
      symmetry in Heq. by apply app_singleton_neq in Heq.
    + rewrite Hrun in Heq. injection Heq as _ Heq.
      symmetry in Heq. by apply app_singleton_neq in Heq.
  - intros [H|H]; apply search_without_key; by rewrite H.
Qed.

(** ** The bound on the number of results *)

Lemma organic_results_length data rs :
  organic_results data = Returns rs → (length rs ≤ 10)%nat.
Proof.
  unfold organic_results, py_get. destruct data as [| | | | | |d]; try done.
  simpl. destruct (default (JArr []) (d !! "organic")) as [| | | |s|l|]; try done;
    simpl; intros Hrs; apply comprehension_length in Hrs; rewrite Hrs, length_take; lia.
Qed.

(** X3.  Whatever the provider sends back, a search that returns has
    returned at most ten results. *)
Theorem search_returns_at_most_ten w query sent rs sent' :
  search w query sent = (Returns rs, sent') → (length rs ≤ 10)%nat.
Proof.
  intros Hrun.
  destruct (search_cases w query sent)
    as [[_ Heq]|[(k & _ & _ & Heq)|(k & resp & _ & _ & Heq)]];
    rewrite Hrun in Heq; [done|done|].
  injection Heq as Heq _.
  destruct (status_code resp =? 200); [|done].
  unfold response_json in Heq. destruct (json_body resp) as [data|]; [|done].
  simpl in Heq. symmetry in Heq. by eapply organic_results_length.
Qed.

Lemma search_returns_at_most_ten_witness :
  (length (Samples.hit <$> take 10 Samples.twelve) ≤ 10)%nat.
Proof.
  apply (search_returns_at_most_ten
           (Samples.world_replying (Some "k")
              (Samples.ok_reply
                 (JObj {[ "organic" := JArr (Samples.entry <$> Samples.twelve) ]})))
           "rust vs go" [] (Samples.hit <$> take 10 Samples.twelve)
           [search_request "k" "rust vs go"]).
  vm_compute. reflexivity.
Defined.

(** ** What the normalisation looks at *)

(** X4.  Only the first ten organic entries are looked at: two payloads
    whose organic lists agree on their first ten entries give the same
    outcome, whatever follows the tenth entry and whatever else the payloads
    hold. *)
Theorem organic_results_first_ten_only (d d' : gmap string json) l l' :
  d !! "organic" = Some (JArr l) →
  d' !! "organic" = Some (JArr l') →
  take 10 l = take 10 l' →
  organic_results (JObj d) = organic_results (JObj d').
Proof.
  intros Hd Hd' Htake.
  by rewrite (organic_results_list _ _ Hd), (organic_results_list _ _ Hd'), Htake.
Qed.

(** Ten entries followed by values that are not records, against the ten
    entries alone. *)
Lemma organic_results_first_ten_only_witness :
  let ten := Samples.entry <$> take 10 Samples.twelve in
  organic_results
    (JObj {[ "organic" := JArr (ten ++ [JNull; JInt 7; JObj {[ "title" := JNull ]}]);
             "credits" := JInt 1 ]})
  = organic_results (JObj {[ "organic" := JArr ten ]}).
Proof.
  intros ten.
  apply (organic_results_first_ten_only
           {[ "organic" := JArr (ten ++ [JNull; JInt 7; JObj {[ "title" := JNull ]}]);
              "credits" := JInt 1 ]}
           {[ "organic" := JArr ten ]}
           (ten ++ [JNull; JInt 7; JObj {[ "title" := JNull ]}]) ten).
  - vm_compute. reflexivity.
  - vm_compute. reflexivity.
  - vm_compute. reflexivity.
Defined.

(** X5.  A result depends on its record only through the three keys
    [title], [link] and [snippet]: records that agree on them give the same
    outcome, whatever other keys they hold. *)
Theorem SearchResult_of_three_keys_only (d d' : gmap string json) :
  (∀ key, key ∈ result_fields → d !! key = d' !! key) →
  SearchResult_of (JObj d) = SearchResult_of (JObj d').
Proof.
  intros Hagree. unfold SearchResult_of, py_get.
  rewrite (Hagree "title"), (Hagree "link"), (Hagree "snippet");
    [done | | |]; unfold result_fields; set_solver.
Qed.

Lemma SearchResult_of_three_keys_only_witness :
  SearchResult_of
    (JObj {[ "title" := JStr "t"; "position" := JInt 3; "date" := JNull ]})
  = SearchResult_of (JObj {[ "title" := JStr "t" ]}).
Proof.
  apply (SearchResult_of_three_keys_only
           {[ "title" := JStr "t"; "position" := JInt 3; "date" := JNull ]}
           {[ "title" := JStr "t" ]}).
  intros key Hkey. unfold result_fields in Hkey.
  repeat (apply elem_of_cons in Hkey as [->|Hkey]; [vm_compute; reflexivity|]).
  by apply elem_of_nil in Hkey.
Defined.

Lemma str_field_ok_false d key :
  str_field_ok d key = false ↔ ∃ v, d !! key = Some v ∧ validate_str v = None.
Proof.
  unfold str_field_ok. destruct (d !! key) as [v|]; split.
  - intros H. exists v. split; [done|].
    apply bool_decide_eq_false in H.
    destruct (validate_str v); [|done]. destruct H. eauto.
  - intros (v' & [= <-] & Hv). apply bool_decide_eq_false. rewrite Hv.
    by intros [? ?].
  - done.
  - by intros (v & ? & _).
Qed.

Lemma record_not_ok d :
  record_ok (JObj d) = false →
  ∃ key v, key ∈ result_fields ∧ d !! key = Some v ∧ validate_str v = None.
Proof.
  simpl. rewrite andb_true_r.
  destruct (str_field_ok d "title") eqn:Ht;
    [destruct (str_field_ok d "link") eqn:Hl;
     [destruct (str_field_ok d "snippet") eqn:Hs; [done|]|]|]; intros _.
  - apply str_field_ok_false in Hs as (v & ? & ?).
    exists "snippet", v. unfold result_fields. split; [set_solver|done].
  - apply str_field_ok_false in Hl as (v & ? & ?).
    exists "link", v. unfold result_fields. split; [set_solver|done].
  - apply str_field_ok_false in Ht as (v & ? & ?).
    exists "title", v. unfold result_fields. split; [set_solver|done].
Qed.

Lemma is_returns_record_ok (e : json) :
  is_returns (SearchResult_of e) = record_ok e.
Proof.
  destruct (record_ok e) eqn:Hok.
  - by apply record_ok_returns.
  - destruct e as [| | | | | |d]; try done.
    destruct (record_not_ok _ Hok) as (key & v & Hkey & Hv & Hbad).
    by destruct (SearchResult_of_ill_typed _ _ _ Hkey Hv Hbad) as (fs & -> & _).
Qed.

(** X6.  A result is built from an entry exactly when the entry is a
    mapping whose [title], [link] and [snippet] are strings where present;
    every other entry makes the constructor or the lookup raise. *)
Theorem SearchResult_of_returns_iff (e : json) :
  is_returns (SearchResult_of e) = record_ok e.
Proof. apply is_returns_record_ok. Qed.

Lemma SearchResult_new_raises t l s e :
  SearchResult_new t l s = Raises e →
  e = ValidationError (invalid_fields [("title", t); ("link", l); ("snippet", s)]).
Proof.
  unfold SearchResult_new.
  destruct (validate_str t), (validate_str l), (validate_str s); congruence.
Qed.

Lemma default_not_str (d : gmap string json) key placeholder :
  validate_str (default (JStr placeholder) (d !! key)) = None →
  d !! key = Some (default (JStr placeholder) (d !! key)).
Proof. by destruct (d !! key). Qed.

Lemma SearchResult_of_raises_validation (d : gmap string json) e :
  SearchResult_of (JObj d) = Raises e →
  ∃ fs,
    e = ValidationError fs ∧ fs ≠ []
    ∧ ∀ key, key ∈ fs →
        key ∈ result_fields ∧ ∃ v, d !! key = Some v ∧ validate_str v = None.
Proof.
  intros Hraise.
  assert (Hok : record_ok (JObj d) = false).
  { by rewrite <- is_returns_record_ok, Hraise. }
  destruct (record_not_ok _ Hok) as (key & v & Hkey & Hv & Hbad).
  destruct (SearchResult_of_ill_typed _ _ _ Hkey Hv Hbad) as (fs & Hfs & Hin).
  assert (e = ValidationError fs) as -> by congruence.
  exists fs. split; [done|]. split.
  { intros ->. by apply elem_of_nil in Hin. }
  apply SearchResult_new_raises in Hfs. injection Hfs as ->.
  intros k (v' & Hv' & Hnone)%elem_of_invalid_fields. unfold result_fields.
  apply elem_of_cons in Hv' as [[= -> ->]|Hv'].
  { split; [repeat constructor|]. eauto using default_not_str. }
  apply elem_of_cons in Hv' as [[= -> ->]|Hv'].
  { split; [repeat constructor|]. eauto using default_not_str. }
  apply elem_of_cons in Hv' as [[= -> ->]|Hv'].
  { split; [repeat constructor|]. eauto using default_not_str. }
  by apply elem_of_nil in Hv'.
Qed.

(** X7.  Building a result from a mapping never fails for a missing key:
    when it raises, the exception is a validation error, and every field it
    names is one of the three keys, present in the record with a value that
    is not a string. *)
Theorem SearchResult_of_errors (d : gmap string json) e :
  SearchResult_of (JObj d) = Raises e →
  ∃ fs,
    e = ValidationError fs ∧ fs ≠ []
    ∧ ∀ key, key ∈ fs →
        key ∈ result_fields ∧ ∃ v, d !! key = Some v ∧ validate_str v = None.
Proof. apply SearchResult_of_raises_validation. Qed.

Lemma SearchResult_of_errors_witness :
  ∃ fs,
    ValidationError ["title"; "snippet"] = ValidationError fs ∧ fs ≠ []
    ∧ ∀ key, key ∈ fs →
        key ∈ result_fields
        ∧ ∃ v, ({[ "title" := JNull; "snippet" := JInt 3 ]} : gmap string json) !! key
                 = Some v ∧ validate_str v = None.
Proof.
  apply (SearchResult_of_errors {[ "title" := JNull; "snippet" := JInt 3 ]}).
  vm_compute. reflexivity.
Defined.

(** ** No partial results *)

(** X8.  When one of the first ten organic entries cannot be turned into a
    result and every entry before it can, the search raises the exception of
    that entry, whatever its kind: the results already built are dropped and
    the entries after it are not looked at. *)
Theorem search_raises_first_entry_error
    w query sent api_key resp (d : gmap string json) l1 x l2 e :
  key_configured w api_key →
  provider w (search_request api_key query) = Replies resp →
  status_code resp = 200 →
  json_body resp = Some (JObj d) →
  d !! "organic" = Some (JArr (l1 ++ x :: l2)) →
  forallb record_ok l1 = true →
  (length l1 < 10)%nat →
  SearchResult_of x = Raises e →
  search w query sent = (Raises e, sent ++ [search_request api_key query]).
Proof.
  intros Hkey Hresp Hstatus Hbody Horganic Hok Hlen Hx.
  rewrite (search_builds_first_ten _ _ _ _ _ _ _ Hkey Hresp Hstatus Hbody
             Horganic).
  rewrite take_app_ge by lia.
  destruct (10 - length l1)%nat as [|n] eqn:En; [lia|]. simpl.
  by rewrite (comprehension_raises _ _ _ _ _ (records_return _ Hok) Hx).
Qed.

(** A good entry, then a string where a record should be, then a record
    with a null title: the error is the one of the string. *)
Lemma search_raises_first_entry_error_witness :
  let l := [Samples.entry "a"; JStr "oops"; JObj {[ "title" := JNull ]}] in
  search (Samples.world_replying (Some "k")
            (Samples.ok_reply (JObj {[ "organic" := JArr l ]})))
         "rust vs go" []
  = (Raises (AttributeError "get"), [] ++ [search_request "k" "rust vs go"]).
Proof.
  intros l.
  apply (search_raises_first_entry_error _ "rust vs go" [] "k"
           (Samples.ok_reply (JObj {[ "organic" := JArr l ]}))
           {[ "organic" := JArr l ]}
           [Samples.entry "a"] (JStr "oops") [JObj {[ "title" := JNull ]}]).
  - split; [reflexivity | discriminate].
  - reflexivity.
  - reflexivity.
  - reflexivity.
  - vm_compute. reflexivity.
  - vm_compute. reflexivity.
  - simpl. lia.
  - reflexivity.
Defined.

(** ** Failures that are not translated *)

(** X9.  When the request cannot be delivered, the exception of the HTTP
    library leaves the search as it is: it is not turned into an
    [HTTPException], and the one attempted request is in the log. *)
Theorem search_network_failure w query sent api_key :
  key_configured w api_key →
  provider w (search_request api_key query) = Unreachable →
  search w query sent =
    (Raises RequestException, sent ++ [search_request api_key query]).
Proof.
  intros Hkey Hp. unfold search.
  rewrite (key_configured_truthy _ _ Hkey). destruct Hkey as [-> _]. simpl.
  unfold mbind at 1, M_bind, requests_post. by rewrite Hp.
Qed.

Lemma search_network_failure_witness :
  let w := {| environ := {[ "SERPAPI_API_KEY" := "k" ]};
              provider := λ _, Unreachable |} in
  search w "rust vs go" [] =
    (Raises RequestException, [] ++ [search_request "k" "rust vs go"]).
Proof.
  intros w. apply (search_network_failure w "rust vs go" [] "k").
  - split; [reflexivity | discriminate].
  - reflexivity.
Defined.

(** X10.  A 200 answer whose body is not JSON makes [response.json()]
    raise; the search lets that exception through. *)
Theorem search_body_not_json w query sent api_key resp :
  key_configured w api_key →
  provider w (search_request api_key query) = Replies resp →
  status_code resp = 200 →
  json_body resp = None →
  search w query sent =
    (Raises JSONDecodeError, sent ++ [search_request api_key query]).
Proof.
  intros Hkey Hresp Hstatus Hbody.
  rewrite (search_replied _ _ _ _ _ Hkey Hresp), Hstatus. simpl.
  unfold response_json. by rewrite Hbody.
Qed.

Lemma search_body_not_json_witness :
  let resp := {| status_code := 200; text := "<html>ok</html>";
                 json_body := None |} in
  search (Samples.world_replying (Some "k") resp) "rust vs go" [] =
    (Raises JSONDecodeError, [] ++ [search_request "k" "rust vs go"]).
Proof.
  intros resp.
  apply (search_body_not_json (Samples.world_replying (Some "k") resp)
           "rust vs go" [] "k" resp).
  - split; [reflexivity | discriminate].
  - reflexivity.
  - reflexivity.
  - reflexivity.
Defined.

(** X11.  A 200 answer whose JSON body is not an object (a list, a string,
    a number, null) has no [get]: the search raises an attribute error. *)
Theorem search_payload_not_object w query sent api_key resp data :
  key_configured w api_key →
  provider w (search_request api_key query) = Replies resp →
  status_code resp = 200 →
  json_body resp = Some data →
  (∀ d, data ≠ JObj d) →
  search w query sent =
    (Raises (AttributeError "get"), sent ++ [search_request api_key query]).
Proof.
  intros Hkey Hresp Hstatus Hbody Hobj.
  rewrite (search_replied _ _ _ _ _ Hkey Hresp), Hstatus. simpl.
  unfold response_json. rewrite Hbody. simpl.
  destruct data as [| | | | | |d]; try done. by destruct (Hobj d).
Qed.

Lemma search_payload_not_object_witness :
  search (Samples.world_replying (Some "k")
            (Samples.ok_reply (JArr [Samples.entry "a"])))
         "rust vs go" []
  = (Raises (AttributeError "get"), [] ++ [search_request "k" "rust vs go"]).
Proof.
  apply (search_payload_not_object _ "rust vs go" [] "k"
           (Samples.ok_reply (JArr [Samples.entry "a"]))
           (JArr [Samples.entry "a"])).
  - split; [reflexivity | discriminate].
  - reflexivity.
  - reflexivity.
  - reflexivity.
  - discriminate.
Defined.

(** X12.  A present ["organic"] is used as it is, even when it is not a
    list: null, a boolean or a number cannot be sliced and the search raises
    a type error (only an absent key gives the empty list); an empty string
    slices to nothing and gives no result; a string with characters is
    sliced into characters, which have no [get]. *)
Theorem search_organic_not_a_list w query sent api_key resp (d : gmap string json) v :
  key_configured w api_key →
  provider w (search_request api_key query) = Replies resp →
  status_code resp = 200 →
  json_body resp = Some (JObj d) →
  d !! "organic" = Some v →
  (∀ l, v ≠ JArr l) → (∀ o, v ≠ JObj o) →
  search w query sent =
    (match v with
     | JStr "" => Returns []
     | JStr _ => Raises (AttributeError "get")
     | _ => Raises TypeError
     end,
     sent ++ [search_request api_key query]).
Proof.
  intros Hkey Hresp Hstatus Hbody Horganic Hlist Hobj.
  rewrite (search_replied _ _ _ _ _ Hkey Hresp), Hstatus. simpl.
  unfold response_json. rewrite Hbody. simpl.
  unfold organic_results, py_get. rewrite Horganic. simpl.
  destruct v as [| | | |s|l|o]; try done;
    first [ by destruct s as [|c s] | by destruct (Hlist l) | by destruct (Hobj o) ].
Qed.

Lemma search_organic_not_a_list_witness :
  search (Samples.world_replying (Some "k")
            (Samples.ok_reply (JObj {[ "organic" := JNull ]})))
         "rust vs go" []
  = (Raises TypeError, [] ++ [search_request "k" "rust vs go"]).
Proof.
  apply (search_organic_not_a_list _ "rust vs go" [] "k"
           (Samples.ok_reply (JObj {[ "organic" := JNull ]}))
           {[ "organic" := JNull ]} JNull).
  - split; [reflexivity | discriminate].
  - reflexivity.
  - reflexivity.
  - reflexivity.
  - vm_compute. reflexivity.
  - discriminate.
  - discriminate.
Defined.

(** ** The HTTP errors of the search tool *)

Lemma comprehension_raises_inv {A B} (f : A → outcome B) l e :
  comprehension f l = Raises e → ∃ x, x ∈ l ∧ f x = Raises e.
Proof.
  induction l as [|x l IH]; simpl; [done|].
  unfold mbind, outcome_bind.
  destruct (f x) as [y|e'] eqn:Hx.
  - destruct (comprehension f l) as [ys|e''] eqn:Hl; [done|].
    intros [= ->]. destruct IH as (x' & Hin & Hx'); [done|].
    exists x'. split; [by apply elem_of_cons; right | done].
  - intros [= ->]. exists x. split; [by apply elem_of_cons; left | done].
Qed.

Lemma SearchResult_of_not_http x status detail :
  SearchResult_of x ≠ Raises (HTTPException status detail).
Proof.
  destruct x as [| | | | | |d]; try done.
  intros H. by apply SearchResult_of_raises_validation in H as (fs & ? & _).
Qed.

Lemma organic_results_not_http data status detail :
  organic_results data ≠ Raises (HTTPException status detail).
Proof.
  unfold organic_results, py_get. destruct data as [| | | | | |d]; try done.
  simpl. destruct (default (JArr []) (d !! "organic")) as [| | | |s|l|]; try done;
    simpl; intros (x & _ & Hx)%comprehension_raises_inv;
    by apply SearchResult_of_not_http in Hx.
Qed.

(** X13.  The search raises an [HTTPException] in two situations only, both
    with status 500: the key is absent or empty, with the key-not-found
    detail and nothing sent; or the provider answered with a status other
    than 200, with the detail built from the body text and one request
    sent.  No other failure of the search is an [HTTPException]. *)
Theorem search_http_errors w query sent status detail sent' :
  search w query sent = (Raises (HTTPException status detail), sent') →
  status = 500
  ∧ ((py_not (os_getenv w "SERPAPI_API_KEY") = true
      ∧ detail = "SerpAPI API Key not found!" ∧ sent' = sent)
     ∨ ∃ api_key resp,
         key_configured w api_key
         ∧ provider w (search_request api_key query) = Replies resp
         ∧ status_code resp ≠ 200
         ∧ detail = "SerpAPI Request Failed: " +:+ text resp
         ∧ sent' = sent ++ [search_request api_key query]).
Proof.
  intros Hrun.
  destruct (search_cases w query sent)
    as [[Hnot Heq]|[(k & _ & _ & Heq)|(k & resp & Hk & Hp & Heq)]];
    rewrite Hrun in Heq.
  - injection Heq as -> -> ->. split; [done|]. by left.
  - done.
  - destruct (status_code resp =? 200) eqn:Hst.
    + injection Heq as Heq _. exfalso.
      unfold response_json in Heq. destruct (json_body resp) as [data|]; [|done].
      simpl in Heq. symmetry in Heq. by apply organic_results_not_http in Heq.
    + injection Heq as -> -> ->. split; [done|]. right.
      exists k, resp. apply Z.eqb_neq in Hst. done.
Qed.

Lemma search_http_errors_witness :
  let resp := {| status_code := 429; text := "Too Many Requests";
                 json_body := None |} in
  let w := Samples.world_replying (Some "k") resp in
  500 = 500
  ∧ ((py_not (os_getenv w "SERPAPI_API_KEY") = true
      ∧ "SerpAPI Request Failed: Too Many Requests" = "SerpAPI API Key not found!"
      ∧ [search_request "k" "rust vs go"] = [])
     ∨ ∃ api_key resp',
         key_configured w api_key
         ∧ provider w (search_request api_key "rust vs go") = Replies resp'
         ∧ status_code resp' ≠ 200
         ∧ "SerpAPI Request Failed: Too Many Requests"
           = "SerpAPI Request Failed: " +:+ text resp'
         ∧ [search_request "k" "rust vs go"]
           = [] ++ [search_request api_key "rust vs go"]).
Proof.
  intros resp w.
  apply (search_http_errors w "rust vs go" [] 500
           "SerpAPI Request Failed: Too Many Requests"
           [search_request "k" "rust vs go"]).
  vm_compute. reflexivity.
Defined.

(** ** The request that is sent *)

(** Two requests are the same exactly when they were built from the same
    key and the same query. *)
Lemma search_request_eq_iff api_key query api_key' query' :
  search_request api_key query = search_request api_key' query'
  ↔ api_key = api_key' ∧ query = query'.
Proof.
  split; [|by intros [-> ->]].
  intros Heq. split.
  - apply (f_equal (λ r, headers r !! "X-API-KEY")) in Heq. simpl in Heq.
    rewrite !lookup_insert_eq in Heq. by injection Heq.
  - apply (f_equal (λ r, match data r with
                          | JObj d => d !! "q"
                          | _ => None
                          end)) in Heq.
    simpl in Heq. rewrite !lookup_singleton_eq in Heq. by injection Heq.
Qed.

(** ** The handler and the agent *)

(** X15.  The handler returns exactly when the agent returns leaving an
    instance of the response format in the task; the dict then holds the
    input keyword and the results of that instance, unchanged and in any
    number, and the log is the one the agent left. *)
Theorem perform_search_returns_iff agent w input_data sent body sent' :
  perform_search agent w input_data sent = (Returns body, sent')
  ↔ ∃ r,
      agent search_agent (search_task w input_data) sent
        = (Returns (ModelResponse r), sent')
      ∧ body = {| body_keyword := keyword input_data;
                  body_results := results r |}.
Proof.
  split.
  - apply perform_search_inv.
  - intros (r & Hagent & ->). by apply perform_search_model.
Qed.

(** X16.  The handler does not catch what the agent raises: the exception
    leaves the handler as it is, and the client receives the status and
    detail of an [HTTPException], or status 500 for any other exception. *)
Theorem perform_search_propagates agent w input_data sent e sent' :
  agent search_agent (search_task w input_data) sent = (Raises e, sent') →
  perform_search agent w input_data sent = (Raises e, sent')
  ∧ post_search agent w (JObj {[ "keyword" := JStr (keyword input_data) ]}) sent
    = (match e with
       | HTTPException status detail => ReplyDetail status detail
       | _ => ReplyInternalError
       end, sent').
Proof.
  intros Hagent.
  assert (Hrun : perform_search agent w input_data sent = (Raises e, sent')).
  { unfold perform_search. by rewrite (M_bind_raises _ _ _ _ _ Hagent). }
  split; [done|].
  unfold post_search, SearchInput_validate.
  rewrite lookup_singleton_eq. simpl.
  destruct input_data as [kw]. simpl in *. by rewrite Hrun.
Qed.

(** The key is missing and the agent lets the error of the tool through:
    the client is told so with status 500. *)
Lemma perform_search_propagates_witness :
  let w := Samples.world_replying None (Samples.ok_reply (JObj ∅)) in
  let agent := Samples.calling_agent "rust vs go" in
  perform_search agent w {| keyword := "rust vs go" |} [] =
    (Raises (HTTPException 500 "SerpAPI API Key not found!"), [])
  ∧ post_search agent w (JObj {[ "keyword" := JStr "rust vs go" ]}) []
    = (ReplyDetail 500 "SerpAPI API Key not found!", []).
Proof.
  intros w agent.
  apply (perform_search_propagates agent w {| keyword := "rust vs go" |} []
           (HTTPException 500 "SerpAPI API Key not found!") []).
  vm_compute. reflexivity.
Defined.

(** X17.  The handler sends nothing of its own: after it has run, the log
    of requests is the one the agent left, whether the handler returned or
    raised. *)
Theorem perform_search_sends_nothing agent w input_data sent :
  (perform_search agent w input_data sent).2
  = (agent search_agent (search_task w input_data) sent).2.
Proof.
  unfold perform_search, mbind at 1, M_bind.
  destruct (agent search_agent (search_task w input_data) sent)
    as [[v|e] sent1]; [|done].
  destruct v as [|r|j]; simpl; try done.
  by destruct (truthy j).
Qed.

(** ** The task description *)

Lemma string_to_list_app s t :
  String.list_ascii_of_string (s +:+ t)
  = String.list_ascii_of_string s ++ String.list_ascii_of_string t.
Proof. induction s as [|c s IH]; simpl; [done | by rewrite IH]. Qed.

Lemma string_app_inv_tail s1 s2 t : s1 +:+ t = s2 +:+ t → s1 = s2.
Proof.
  intros H. apply (f_equal String.list_ascii_of_string) in H.
  rewrite !string_to_list_app in H. apply app_inv_tail in H.
  apply (f_equal String.string_of_list_ascii) in H.
  by rewrite !String.string_of_list_ascii_of_string in H.
Qed.

(** Two descriptions are the same exactly when the keywords are. *)
Lemma task_description_eq_iff kw kw' :
  task_description kw = task_description kw' ↔ kw = kw'.
Proof.
  split; [|by intros ->].
  unfold task_description. intros H.
  apply (inj (String.app _)) in H. by apply string_app_inv_tail in H.
Qed.

(** ** The request that is sent, field by field *)

(** X14.  When the key is configured, the one request a search sends goes
    to the provider's search URL, carries the configured key unchanged under
    the header [X-API-KEY] beside the JSON content type and nothing else, and
    carries the query unchanged under the payload key [q]; the key and the
    query can be read back from it. *)
Theorem search_sends_key_and_query w query sent api_key :
  key_configured w api_key →
  ∃ req,
    (search w query sent).2 = sent ++ [req]
    ∧ url req = "https://google.serper.dev/search"
    ∧ headers req = {[ "X-API-KEY" := api_key;
                       "Content-Type" := "application/json" ]}
    ∧ data req = JObj {[ "q" := JStr query ]}
    ∧ ∀ api_key' query',
        req = search_request api_key' query' →
        api_key' = api_key ∧ query' = query.
Proof.
  intros Hkey. exists (search_request api_key query).
  split; [by apply search_sends_any_query|].
  split; [done|]. split; [done|]. split; [done|].
  intros api_key' query' Heq.
  by apply search_request_eq_iff in Heq as [-> ->].
Qed.

Lemma search_sends_key_and_query_witness :
  let w := Samples.world_replying (Some "secret")
             (Samples.ok_reply (JObj {[ "organic" := JArr [] ]})) in
  ∃ req,
    (search w " Rust  vs Go " []).2 = [] ++ [req]
    ∧ url req = "https://google.serper.dev/search"
    ∧ headers req = {[ "X-API-KEY" := "secret";
                       "Content-Type" := "application/json" ]}
    ∧ data req = JObj {[ "q" := JStr " Rust  vs Go " ]}
    ∧ ∀ api_key' query',
        req = search_request api_key' query' →
        api_key' = "secret" ∧ query' = " Rust  vs Go ".
Proof.
  intros w. apply (search_sends_key_and_query w " Rust  vs Go " [] "secret").
  split; [reflexivity | discriminate].
Defined.

(** ** The task handed to the agent *)

(** X18.  The handler uses the agent through one call only: the call with
    the search-analyst configuration and the task whose description is the
    keyword, unchanged, between the two fixed pieces of text, and whose only
    tool is the search.  Two agents that answer that call alike make the
    handler behave alike, and tasks built for different keywords have
    different descriptions. *)
Theorem task_handed_to_agent w kw :
  (∀ (agent agent' : Agent) sent,
     agent search_agent
       {| description :=
            "Perform a web search for " +:+ kw
              +:+ " and return the top results with titles, links, and snippets.";
          tools := [search w] |} sent
     = agent' search_agent
         {| description :=
              "Perform a web search for " +:+ kw
                +:+ " and return the top results with titles, links, and snippets.";
            tools := [search w] |} sent →
     perform_search agent w {| keyword := kw |} sent
     = perform_search agent' w {| keyword := kw |} sent)
  ∧ ∀ kw',
      description (search_task w {| keyword := kw' |})
      = description (search_task w {| keyword := kw |}) ↔ kw' = kw.
Proof.
  split.
  - intros agent agent' sent Hsame.
    unfold perform_search, mbind at 1 3, M_bind, search_task, task_description.
    simpl. by rewrite Hsame.
  - intros kw'. apply task_description_eq_iff.
Qed.

(** An agent that only answers the task with the expected description is
    indistinguishable, for that keyword, from one that answers every task. *)
Lemma task_handed_to_agent_witness :
  let w := Samples.world_replying (Some "k")
             (Samples.ok_reply (JObj {[ "organic" := JArr [Samples.entry "a"] ]})) in
  perform_search (Samples.calling_agent "rust vs go") w
    {| keyword := "rust vs go" |} []
  = perform_search
      (Samples.picky_agent
         "Perform a web search for rust vs go and return the top results with titles, links, and snippets."
         "rust vs go")
      w {| keyword := "rust vs go" |} [].
Proof.
  intros w.
  apply (proj1 (task_handed_to_agent w "rust vs go")
           (Samples.calling_agent "rust vs go")
           (Samples.picky_agent
              "Perform a web search for rust vs go and return the top results with titles, links, and snippets."
              "rust vs go")
           []).
  vm_compute. reflexivity.
Defined.

(** ** A failed normalisation and the request (C10) *)






(** The same run on the record with a null title: the search raised, one
    request was sent, and the client receives an empty result list. *)
Example tolerant_agent_completes :
  post_search (Samples.tolerant_agent "rust vs go")
    (Samples.world_replying (Some "k")
       (Samples.ok_reply
          (JObj {[ "organic" := JArr [JObj {[ "title" := JNull ]}] ]})))
    (JObj {[ "keyword" := JStr "rust vs go" ]}) []
  = (Reply200 {| body_keyword := "rust vs go"; body_results := [] |},
     [search_request "k" "rust vs go"]).
Proof. vm_compute. reflexivity. Qed.
